(** * Container inventory provider: inspection and normalisation pipeline

    Shallow embedding of
    [source/code/providers/Container_ContainerInventory_Class_Provider.cpp]
    (class [ContainerQuery]) and the properties of its extractors and of
    [QueryAll].

    Conventions.
    - A C string pointer ([char*], [const char*]) is a [c_str]: [None] is the
      null pointer.
    - A pointer to a JSON node ([cJSON*]) is an [option cJSON].
    - Code runs in the monad [M St]: a state [St] threaded through the calls and
      an [outcome] that is either a normal result or a [fault]: a member read
      through a null pointer, a vector subscript out of range.  The state
      reached when the fault happens is kept, so that what the code did
      before it can be stated.
    - A member access whose value is discarded ([p->member;]) loads nothing
      and cannot fault.
    - [std::vector::operator[]] does not test its subscript.  [QueryAll] is
      the execution in which an out-of-range subscript stops the program (the
      library's assertions on); [QueryAll_unchecked] is the execution without
      the test, in which the loop goes on.
    - [syslog] appends to a list of log entries. *)

From Stdlib Require Import String List ZArith Bool Lia.
Import ListNotations.
Open Scope string_scope.

(* ================================================================== *)
(** ** C strings and JSON nodes *)

Definition c_str : Type := option string.

(** Modelled from the spec: the [cJSON] node of cJSON.h, which is not among
    the sources.  Only the members the provider reads are kept:
    [valuestring] (null unless the node is a JSON string), [valueint] (the
    integer value; 1 for [true], 0 for [false] and for every node that is
    not a number), [string_] (the member name under which the node sits in
    its parent object, null for array elements and for the root) and the
    chain of children [child].  [valueint] is a C [int]; nothing below
    depends on its range. *)
#[local] Set Warnings "-register-all".
Inductive cJSON : Type := mk_cJSON {
  string_ : c_str;
  valuestring : c_str;
  valueint : Z;
  child : list cJSON
}.

Definition name_matches (name : string) (c : cJSON) : bool :=
  match string_ c with
  | Some s => String.eqb s name
  | None => false
  end.

(** Modelled from the spec: [cJSON_GetObjectItem] of cJSON.h (JSON Accessor:
    given a document and a field name, returns the child value or an absent
    marker; never throws for a missing key).  The first child carrying the
    name is returned. *)
Definition cJSON_GetObjectItem (object : cJSON) (name : string) : option cJSON :=
  find (name_matches name) (child object).

(* ================================================================== *)
(** ** The inventory record *)

(** Modelled from the spec: [Container_ContainerInventory_Class] of
    Container_ContainerInventory_Class.h, which is not among the sources.
    Every property of an MI instance carries an "exists" flag: a property
    never assigned is [None], and [X_value v] makes it [Some v].  String
    properties hold the C string they were given, [ExitCode] the integer it
    was given (the width of the MI property is not modelled). *)
Record Container_ContainerInventory_Class : Type := mk_instance {
  InstanceID : option c_str;
  ImageId : option c_str;
  CreatedTime : option c_str;
  ContainerHostname : option c_str;
  EnvironmentVar : option c_str;
  Command : option c_str;
  ComposeGroup : option c_str;
  ExitCode : option Z;
  State : option c_str;
  Links : option c_str;
  Ports : option c_str
}.

(** The default-constructed instance: no property exists. *)
Definition new_instance : Container_ContainerInventory_Class :=
  mk_instance None None None None None None None None None None None.

Definition InstanceID_value (x : c_str) (r : Container_ContainerInventory_Class) :=
  mk_instance (Some x) (ImageId r) (CreatedTime r) (ContainerHostname r)
    (EnvironmentVar r) (Command r) (ComposeGroup r) (ExitCode r) (State r)
    (Links r) (Ports r).

Definition ImageId_value (x : c_str) (r : Container_ContainerInventory_Class) :=
  mk_instance (InstanceID r) (Some x) (CreatedTime r) (ContainerHostname r)
    (EnvironmentVar r) (Command r) (ComposeGroup r) (ExitCode r) (State r)
    (Links r) (Ports r).

Definition CreatedTime_value (x : c_str) (r : Container_ContainerInventory_Class) :=
  mk_instance (InstanceID r) (ImageId r) (Some x) (ContainerHostname r)
    (EnvironmentVar r) (Command r) (ComposeGroup r) (ExitCode r) (State r)
    (Links r) (Ports r).

Definition ContainerHostname_value (x : c_str) (r : Container_ContainerInventory_Class) :=
  mk_instance (InstanceID r) (ImageId r) (CreatedTime r) (Some x)
    (EnvironmentVar r) (Command r) (ComposeGroup r) (ExitCode r) (State r)
    (Links r) (Ports r).

Definition EnvironmentVar_value (x : c_str) (r : Container_ContainerInventory_Class) :=
  mk_instance (InstanceID r) (ImageId r) (CreatedTime r) (ContainerHostname r)
    (Some x) (Command r) (ComposeGroup r) (ExitCode r) (State r)
    (Links r) (Ports r).

Definition Command_value (x : c_str) (r : Container_ContainerInventory_Class) :=
  mk_instance (InstanceID r) (ImageId r) (CreatedTime r) (ContainerHostname r)
    (EnvironmentVar r) (Some x) (ComposeGroup r) (ExitCode r) (State r)
    (Links r) (Ports r).

Definition ComposeGroup_value (x : c_str) (r : Container_ContainerInventory_Class) :=
  mk_instance (InstanceID r) (ImageId r) (CreatedTime r) (ContainerHostname r)
    (EnvironmentVar r) (Command r) (Some x) (ExitCode r) (State r)
    (Links r) (Ports r).

Definition ExitCode_value (x : Z) (r : Container_ContainerInventory_Class) :=
  mk_instance (InstanceID r) (ImageId r) (CreatedTime r) (ContainerHostname r)
    (EnvironmentVar r) (Command r) (ComposeGroup r) (Some x) (State r)
    (Links r) (Ports r).

Definition State_value (x : c_str) (r : Container_ContainerInventory_Class) :=
  mk_instance (InstanceID r) (ImageId r) (CreatedTime r) (ContainerHostname r)
    (EnvironmentVar r) (Command r) (ComposeGroup r) (ExitCode r) (Some x)
    (Links r) (Ports r).

Definition Links_value (x : c_str) (r : Container_ContainerInventory_Class) :=
  mk_instance (InstanceID r) (ImageId r) (CreatedTime r) (ContainerHostname r)
    (EnvironmentVar r) (Command r) (ComposeGroup r) (ExitCode r) (State r)
    (Some x) (Ports r).

Definition Ports_value (x : c_str) (r : Container_ContainerInventory_Class) :=
  mk_instance (InstanceID r) (ImageId r) (CreatedTime r) (ContainerHostname r)
    (EnvironmentVar r) (Command r) (ComposeGroup r) (ExitCode r) (State r)
    (Links r) (Some x).

(* ================================================================== *)
(** ** The system log *)

Inductive priority : Type := LOG_WARNING.

(** One call of [syslog(pri, format, arg)]: the format string as written in
    the source and the argument substituted for its single [%s]. *)
Record log_entry : Type := mk_log_entry {
  log_priority : priority;
  log_format : string;
  log_arg : c_str
}.

Definition Syslog : Type := list log_entry.

Definition syslog (pri : priority) (format : string) (arg : c_str) (l : Syslog) : Syslog :=
  (l ++ [mk_log_entry pri format arg])%list.

(* ================================================================== *)
(** ** Outcomes and the state-and-fault monad *)

Inductive fault : Type :=
| NullDereference   (* [p->member] with [p] null *)
| OutOfBounds.      (* [v[n]] with [n >= v.size()] *)

Inductive outcome (A : Type) : Type :=
| Ok (a : A)
| Fault (f : fault).
Arguments Ok {A} a.
Arguments Fault {A} f.

Definition M (St A : Type) : Type := St -> outcome A * St.

Definition ret {St A : Type} (a : A) : M St A := fun s => (Ok a, s).

Definition bind {St A B : Type} (m : M St A) (k : A -> M St B) : M St B :=
  fun s =>
    match m s with
    | (Ok a, s') => k a s'
    | (Fault f, s') => (Fault f, s')
    end.

Declare Scope prog_scope.
Delimit Scope prog_scope with prog.
Notation "x <- m ;; k" := (bind m (fun x => k))
  (at level 100, m at next level, right associativity) : prog_scope.
Notation "m ;; k" := (bind m (fun _ => k))
  (at level 100, right associativity) : prog_scope.
Open Scope prog_scope.

(** [p->member]: the node behind a pointer, a fault when the pointer is
    null. *)
Definition deref {St : Type} (p : option cJSON) : M St cJSON :=
  fun s =>
    match p with
    | Some node => (Ok node, s)
    | None => (Fault NullDereference, s)
    end.

(** [p->member;] as a statement of its own: the value of the expression is
    discarded, so nothing is loaded through the pointer, null or not. *)
Definition discard_member {St : Type} (p : option cJSON) : M St unit := ret tt.

(** The extractors work on the record passed by reference and on the log. *)
Definition Frame : Type := (Container_ContainerInventory_Class * Syslog)%type.

Definition update (f : Container_ContainerInventory_Class -> Container_ContainerInventory_Class)
  : M Frame unit :=
  fun '(instance, l) => (Ok tt, (f instance, l)).

Definition warn (format : string) (arg : c_str) : M Frame unit :=
  fun '(instance, l) => (Ok tt, (instance, syslog LOG_WARNING format arg l)).

(* ================================================================== *)
(** ** External collaborators *)

(** What the provider calls and does not define: the transport of
    DockerRemoteApi.h, the printer of cJSON.h and [gethostname] of unistd.h.
    They are parameters of the development.
    - [getResponse request]: one parsed document per request string, a null
      pointer for a request that failed.
    - [listContainer all]: the identifiers of the containers of the host.
    - [cJSON_Print item]: the text of a node, as a freshly allocated C string;
      its argument may be a null pointer.
    - [gethostname len]: the return code (0 on success) and the name written
      to the buffer. *)
Record Collaborators : Type := mk_collaborators {
  getResponse : list string -> list (option cJSON);
  listContainer : bool -> list string;
  cJSON_Print : option cJSON -> c_str;
  gethostname : Z -> Z * string
}.

(* ================================================================== *)
(** ** class ContainerQuery *)

(** The format strings of the four warnings. *)
Definition config_warning : string :=
  "Attempt in ObtainContainerConfig to get container %s config information returned null".
Definition state_warning : string :=
  "Attempt in ObtainContainerState to get container %s state information returned null".
Definition host_config_warning : string :=
  "Attempt in ObtainContainerHostConfig to get container %s host config information returned null".
Definition inspect_warning : string :=
  "Attempt in InspectContainer to inspect %s returned null".

Section ContainerQuery.

Variable env : Collaborators.

(** [restDockerInspect], lines 26-29.  The request ends in CR LF CR LF. *)
Definition CRLF : string :=
  String (Ascii.ascii_of_nat 13) (String (Ascii.ascii_of_nat 10) EmptyString).

Definition restDockerInspect (id : string) : string :=
  "GET /containers/" ++ id ++ "/json HTTP/1.1" ++ CRLF ++ CRLF.

(** [ObtainContainerConfig], lines 37-69. *)
Definition ObtainContainerConfig (entry : cJSON) : M Frame unit :=
  let config := cJSON_GetObjectItem entry "Config" in
  match config with
  | Some config =>
      hostname <- deref (cJSON_GetObjectItem config "Hostname") ;;
      update (ContainerHostname_value (valuestring hostname)) ;;
      update (EnvironmentVar_value (cJSON_Print env (cJSON_GetObjectItem config "Env"))) ;;
      update (Command_value (cJSON_Print env (cJSON_GetObjectItem config "Cmd"))) ;;
      let labels := cJSON_GetObjectItem config "Labels" in
      match labels with
      | Some labels =>
          let groupName := cJSON_GetObjectItem labels "com.docker.compose.project" in
          match groupName with
          | Some groupName => update (ComposeGroup_value (valuestring groupName))
          | None => ret tt
          end
      | None => ret tt
      end
  | None =>
      id <- deref (cJSON_GetObjectItem entry "Id") ;;
      warn config_warning (valuestring id)
  end.

(** [ObtainContainerState], lines 77-117.  The two last statements of the
    present branch (lines 110-111) look [StartedAt] and [FinishedAt] up and
    discard the member they name: the lookups are made, nothing is read
    through their results. *)
Definition ObtainContainerState (entry : cJSON) : M Frame unit :=
  let state := cJSON_GetObjectItem entry "State" in
  match state with
  | Some state =>
      exitCodeItem <- deref (cJSON_GetObjectItem state "ExitCode") ;;
      let exitCode := valueint exitCodeItem in
      update (ExitCode_value exitCode) ;;
      (if negb (exitCode =? 0)%Z then
         update (State_value (Some "Failed"))
       else
         running <- deref (cJSON_GetObjectItem state "Running") ;;
         if negb (valueint running =? 0)%Z then
           update (State_value (Some "Running"))
         else
           paused <- deref (cJSON_GetObjectItem state "Paused") ;;
           if negb (valueint paused =? 0)%Z then
             update (State_value (Some "Paused"))
           else
             update (State_value (Some "Stopped"))) ;;
      discard_member (cJSON_GetObjectItem state "StartedAt") ;;
      discard_member (cJSON_GetObjectItem state "FinishedAt")
  | None =>
      id <- deref (cJSON_GetObjectItem entry "Id") ;;
      warn state_warning (valuestring id)
  end.

(** [ObtainContainerHostConfig], lines 125-141. *)
Definition ObtainContainerHostConfig (entry : cJSON) : M Frame unit :=
  let hostConfig := cJSON_GetObjectItem entry "HostConfig" in
  match hostConfig with
  | Some hostConfig =>
      update (Links_value (cJSON_Print env (cJSON_GetObjectItem hostConfig "Links"))) ;;
      update (Ports_value (cJSON_Print env (cJSON_GetObjectItem hostConfig "PortBindings")))
  | None =>
      id <- deref (cJSON_GetObjectItem entry "Id") ;;
      warn host_config_warning (valuestring id)
  end.

(** The branch of [InspectContainer] taken for a present document,
    lines 161-167 ([cJSON_Delete] frees memory and is not modelled). *)
Definition InspectContainer_present (entry : cJSON) : M Frame unit :=
  id <- deref (cJSON_GetObjectItem entry "Id") ;;
  update (InstanceID_value (valuestring id)) ;;
  image <- deref (cJSON_GetObjectItem entry "Image") ;;
  update (ImageId_value (valuestring image)) ;;
  created <- deref (cJSON_GetObjectItem entry "Created") ;;
  update (CreatedTime_value (valuestring created)) ;;
  ObtainContainerConfig entry ;;
  ObtainContainerState entry ;;
  ObtainContainerHostConfig entry.

(** [InspectContainer], lines 149-178.  The record is a local of the call:
    it is returned when the call returns and lost when it faults. *)
Definition InspectContainer (id : string) : M Syslog Container_ContainerInventory_Class :=
  fun l =>
    let instance := new_instance in
    let request := [restDockerInspect id] in
    let response := getResponse env request in
    match response with
    | Some entry :: _ =>
        match InspectContainer_present entry (instance, l) with
        | (Ok _, (instance', l')) => (Ok instance', l')
        | (Fault f, (_, l')) => (Fault f, l')
        end
    | _ =>
        (Ok instance, syslog LOG_WARNING inspect_warning (Some id) l)
    end.

(** [result[n].ImageId_value(...)] on a [std::vector]: the element is
    updated in place when [n < result.size()]; the subscript is out of range
    otherwise. *)
Fixpoint vector_update {A : Type} (v : list A) (n : nat) (f : A -> A) : option (list A) :=
  match v, n with
  | [], _ => None
  | x :: v', O => Some (f x :: v')
  | x :: v', S n' =>
      match vector_update v' n' f with
      | Some w => Some (x :: w)
      | None => None
      end
  end.

(** The subscript with the library's assertions on: out of range, the
    program stops there.  The fault marks the access as out of range; it is
    not a test the source makes. *)
Definition subscript_update {A : Type} (v : list A) (n : nat) (f : A -> A) : M Syslog (list A) :=
  fun l =>
    match vector_update v n f with
    | Some w => (Ok w, l)
    | None => (Fault OutOfBounds, l)
    end.

(** The body of the loop of [QueryAll], lines 200-201, at an iteration whose
    identifier is [id]: [size] is [containerIds.size()], [result] the vector
    built so far.  [size] is at least 1 whenever the body runs, so the
    unsigned subtraction [containerIds.size() - 1] does not wrap. *)
Definition QueryAll_body (size : nat) (hostname : string) (id : string)
    (result : list Container_ContainerInventory_Class)
  : M Syslog (list Container_ContainerInventory_Class) :=
  instance <- InspectContainer id ;;
  let result := (result ++ [instance])%list in
  subscript_update result (size - 1) (ImageId_value (Some hostname)).

(** The loop of lines 198-202: [rest] holds [containerIds[i]],
    [containerIds[i+1]], ... for the current value of the counter [i] (an
    [unsigned], wide enough for every list a host can hold). *)
Fixpoint QueryAll_loop (size : nat) (hostname : string) (rest : list string)
    (result : list Container_ContainerInventory_Class)
  : M Syslog (list Container_ContainerInventory_Class) :=
  match rest with
  | [] => ret result
  | id :: rest' =>
      result' <- QueryAll_body size hostname id result ;;
      QueryAll_loop size hostname rest' result'
  end.

(** [QueryAll], lines 186-206 ([openlog] and [closelog] only name the log
    channel and are not modelled). *)
Definition QueryAll : M Syslog (list Container_ContainerInventory_Class) :=
  let '(rc, name) := gethostname env 256 in
  let hostname := if negb (rc =? 0)%Z then "" else name in
  let result := [] in
  let containerIds := listContainer env true in
  QueryAll_loop (length containerIds) hostname containerIds result.

(** The subscript as the source has it, without a test: in range the element
    is updated in place; out of range the write designates no record of the
    vector, and the records it holds stay as they are. *)
Definition subscript_update_unchecked {A : Type} (v : list A) (n : nat) (f : A -> A)
  : list A :=
  match vector_update v n f with
  | Some w => w
  | None => v
  end.

(** Lines 200-201, 198-202 and 186-206 again, with the unchecked subscript:
    nothing in the loop tests the index or leaves the loop. *)
Definition QueryAll_body_unchecked (size : nat) (hostname : string) (id : string)
    (result : list Container_ContainerInventory_Class)
  : M Syslog (list Container_ContainerInventory_Class) :=
  instance <- InspectContainer id ;;
  let result := (result ++ [instance])%list in
  ret (subscript_update_unchecked result (size - 1) (ImageId_value (Some hostname))).

Fixpoint QueryAll_loop_unchecked (size : nat) (hostname : string) (rest : list string)
    (result : list Container_ContainerInventory_Class)
  : M Syslog (list Container_ContainerInventory_Class) :=
  match rest with
  | [] => ret result
  | id :: rest' =>
      result' <- QueryAll_body_unchecked size hostname id result ;;
      QueryAll_loop_unchecked size hostname rest' result'
  end.

Definition QueryAll_unchecked : M Syslog (list Container_ContainerInventory_Class) :=
  let '(rc, name) := gethostname env 256 in
  let hostname := if negb (rc =? 0)%Z then "" else name in
  let result := [] in
  let containerIds := listContainer env true in
  QueryAll_loop_unchecked (length containerIds) hostname containerIds result.

End ContainerQuery.

(* ================================================================== *)
(** ** Reading the result of a run *)

Definition outcome_of {St A : Type} (r : outcome A * St) : outcome A := fst r.
Definition final_instance {A : Type} (r : outcome A * Frame)
  : Container_ContainerInventory_Class := fst (snd r).
Definition final_log {A : Type} (r : outcome A * Frame) : Syslog := snd (snd r).

(** A member of [object] named [name] exists. *)
Definition has (object : cJSON) (name : string) : bool :=
  match cJSON_GetObjectItem object name with
  | Some _ => true
  | None => false
  end.

(** What the logging branch does: it reads [Id] through the pointer the
    lookup returned, and logs when that pointer is not null. *)
Definition logging_branch (entry : cJSON) (format : string) (fr : Frame)
  : outcome unit * Frame :=
  match cJSON_GetObjectItem entry "Id" with
  | Some id => (Ok tt, (fst fr, syslog LOG_WARNING format (valuestring id) (snd fr)))
  | None => (Fault NullDereference, fr)
  end.

(** The label the compose group is taken from: the member
    "com.docker.compose.project" of the [Labels] member of [config], when
    both exist. *)
Definition compose_label (config : cJSON) : option cJSON :=
  match cJSON_GetObjectItem config "Labels" with
  | Some labels => cJSON_GetObjectItem labels "com.docker.compose.project"
  | None => None
  end.

(** The members the extraction reads through an unchecked pointer, given
    the path it takes through [entry]:
    - [Id], [Image] and [Created] of the document (lines 161-163);
    - [Hostname], when [Config] is present (line 44);
    - [ExitCode], when [State] is present (line 83); [Running] only when
      the exit code is zero (line 93); [Paused] only when the exit code is
      zero and [Running] is falsy (line 98).
    [Env], [Cmd], [Links] and [PortBindings] go to [cJSON_Print], [Labels]
    and the compose label are tested before use, and [StartedAt] and
    [FinishedAt] are looked up without being read (lines 110-111). *)
Definition config_dereferences_safe (entry : cJSON) : bool :=
  match cJSON_GetObjectItem entry "Config" with
  | Some config => has config "Hostname"
  | None => true
  end.

Definition flags_dereferences_safe (state : cJSON) (exitCode : Z) : bool :=
  if negb (exitCode =? 0)%Z then true
  else
    match cJSON_GetObjectItem state "Running" with
    | Some running =>
        if negb (valueint running =? 0)%Z then true else has state "Paused"
    | None => false
    end.

Definition state_dereferences_safe (entry : cJSON) : bool :=
  match cJSON_GetObjectItem entry "State" with
  | Some state =>
      match cJSON_GetObjectItem state "ExitCode" with
      | Some exitCodeItem => flags_dereferences_safe state (valueint exitCodeItem)
      | None => false
      end
  | None => true
  end.

Definition dereferences_safe (entry : cJSON) : bool :=
  has entry "Id" && has entry "Image" && has entry "Created"
  && config_dereferences_safe entry && state_dereferences_safe entry.

(** Every child the response document is expected to carry in the
    sub-objects it has: the top-level identity members, [Hostname] under a
    present [Config], and the five members of a present [State]. *)
Definition expected_children_present (entry : cJSON) : bool :=
  has entry "Id" && has entry "Image" && has entry "Created"
  && match cJSON_GetObjectItem entry "Config" with
     | Some config => has config "Hostname"
     | None => true
     end
  && match cJSON_GetObjectItem entry "State" with
     | Some state =>
         has state "ExitCode" && has state "Running" && has state "Paused"
         && has state "StartedAt" && has state "FinishedAt"
     | None => true
     end.

(** The four properties [ObtainContainerConfig] fills. *)
Definition config_properties (r : Container_ContainerInventory_Class)
  : option c_str * option c_str * option c_str * option c_str :=
  (ContainerHostname r, EnvironmentVar r, Command r, ComposeGroup r).

(** The host name [QueryAll] stamps the records with. *)
Definition host_name (env : Collaborators) : string :=
  if negb (fst (gethostname env 256) =? 0)%Z then "" else snd (gethostname env 256).

(* ================================================================== *)
(** ** class Container_ContainerInventory_Class_Provider *)

(** What [Context::Post] is given: a record or the final status. *)
Inductive MI_Result : Type := MI_RESULT_OK | MI_RESULT_NOT_SUPPORTED.

Inductive posted : Type :=
| Post_instance (instance : Container_ContainerInventory_Class)
| Post_result (result : MI_Result).

(** The context of a request is the sequence of what was posted to it; the
    provider runs on the context and the log. *)
Definition Context : Type := list posted.
Definition Request : Type := (Context * Syslog)%type.

Definition Post (p : posted) : M Request unit :=
  fun '(context, l) => (Ok tt, ((context ++ [p])%list, l)).

(** The loop of lines 227-230: [queryResult[i]] for [i] below
    [queryResult.size()], every subscript in range. *)
Fixpoint EnumerateInstances_loop (rest : list Container_ContainerInventory_Class)
  : M Request unit :=
  match rest with
  | [] => ret tt
  | instance :: rest' =>
      Post (Post_instance instance) ;;
      EnumerateInstances_loop rest'
  end.

(** [EnumerateInstances], lines 223-233.  The name space, the property set
    and the filter are of types of MI.h and are not read by the body, no more
    than [keysOnly]. *)
Definition EnumerateInstances (env : Collaborators) (keysOnly : bool) : M Request unit :=
  fun '(context, l) =>
    match QueryAll env l with
    | (Ok queryResult, l') =>
        (EnumerateInstances_loop queryResult ;;
         Post (Post_result MI_RESULT_OK)) (context, l')
    | (Fault f, l') => (Fault f, (context, l'))
    end.

(* ================================================================== *)
(** ** Shapes of records and logs *)

(** The document [InspectContainer] works on: the first element of the
    response to its request, when the response is not empty and that element
    is not null (the test of line 159). *)
Definition document_of (env : Collaborators) (id : string) : option cJSON :=
  match getResponse env [restDockerInspect id] with
  | Some entry :: _ => Some entry
  | _ => None
  end.

(** The properties each part of the extraction fills. *)
Definition identity_properties (r : Container_ContainerInventory_Class)
  : option c_str * option c_str * option c_str :=
  (InstanceID r, ImageId r, CreatedTime r).

Definition state_properties (r : Container_ContainerInventory_Class)
  : option Z * option c_str :=
  (ExitCode r, State r).

Definition host_config_properties (r : Container_ContainerInventory_Class)
  : option c_str * option c_str :=
  (Links r, Ports r).

Definition is_set {A : Type} (x : option A) : bool :=
  match x with
  | Some _ => true
  | None => false
  end.

(** The exit code and the state of a record agree: both absent, or a
    non-zero exit code with "Failed", or a zero exit code with one of
    "Running", "Paused" and "Stopped". *)
Definition state_consistent (r : Container_ContainerInventory_Class) : bool :=
  match ExitCode r, State r with
  | None, None => true
  | Some exitCode, Some (Some s) =>
      if negb (exitCode =? 0)%Z then String.eqb s "Failed"
      else String.eqb s "Running" || String.eqb s "Paused" || String.eqb s "Stopped"
  | _, _ => false
  end.

(** The properties of a record come in groups that are set together: the
    three identity properties; host name, environment and command, with the
    compose group only beside them; links and ports. *)
Definition groups_consistent (r : Container_ContainerInventory_Class) : bool :=
  Bool.eqb (is_set (InstanceID r)) (is_set (ImageId r))
  && Bool.eqb (is_set (InstanceID r)) (is_set (CreatedTime r))
  && Bool.eqb (is_set (ContainerHostname r)) (is_set (EnvironmentVar r))
  && Bool.eqb (is_set (ContainerHostname r)) (is_set (Command r))
  && implb (is_set (ComposeGroup r)) (is_set (ContainerHostname r))
  && Bool.eqb (is_set (Links r)) (is_set (Ports r)).

(** The warnings the extraction of a present document logs when it runs to
    its end: one for each absent sub-object, in the order of the
    extractors, each with the string of the document's [Id]. *)
Definition absent_sub_object_warnings (entry : cJSON) (id : c_str) : Syslog :=
  ((if has entry "Config" then [] else [mk_log_entry LOG_WARNING config_warning id])
   ++ (if has entry "State" then [] else [mk_log_entry LOG_WARNING state_warning id])
   ++ (if has entry "HostConfig" then []
       else [mk_log_entry LOG_WARNING host_config_warning id]))%list.

(* ================================================================== *)
(** ** Documents used as concrete inputs *)

Module Fixtures.

Definition jstring (name value : string) : cJSON := mk_cJSON (Some name) (Some value) 0 [].
Definition jnumber (name : string) (n : Z) : cJSON := mk_cJSON (Some name) None n [].
Definition jbool (name : string) (b : bool) : cJSON :=
  mk_cJSON (Some name) None (if b then 1 else 0)%Z [].
Definition jnull (name : string) : cJSON := mk_cJSON (Some name) None 0 [].
Definition jarray (name : string) (items : list cJSON) : cJSON :=
  mk_cJSON (Some name) None 0 items.
Definition jobject (name : string) (members : list cJSON) : cJSON :=
  mk_cJSON (Some name) None 0 members.
Definition jitem (value : string) : cJSON := mk_cJSON None (Some value) 0 [].
Definition jdocument (members : list cJSON) : cJSON := mk_cJSON None None 0 members.

Definition config_full : cJSON :=
  jobject "Config"
    [ jstring "Hostname" "h1";
      jarray "Env" [jitem "A=1"];
      jarray "Cmd" [jitem "sh"];
      jobject "Labels" [jstring "com.docker.compose.project" "grp"] ].

Definition config_no_labels : cJSON :=
  jobject "Config" [ jstring "Hostname" "h1"; jarray "Env" []; jarray "Cmd" [] ].

Definition config_other_label : cJSON :=
  jobject "Config"
    [ jstring "Hostname" "h1"; jobject "Labels" [jstring "maintainer" "ops"] ].

Definition config_no_hostname : cJSON :=
  jobject "Config"
    [ jobject "Labels" [jstring "com.docker.compose.project" "grp"] ].

Definition state_of (exitCode : Z) (running paused : bool) : cJSON :=
  jobject "State"
    [ jnumber "ExitCode" exitCode; jbool "Running" running; jbool "Paused" paused;
      jstring "StartedAt" "2024-01-01T00:00:01Z";
      jstring "FinishedAt" "0001-01-01T00:00:00Z" ].

(** A state that reports a failure and carries no flags at all. *)
Definition state_failed_no_flags : cJSON :=
  jobject "State"
    [ jnumber "ExitCode" 137;
      jstring "StartedAt" "2024-01-01T00:00:01Z";
      jstring "FinishedAt" "2024-01-01T00:00:02Z" ].

Definition host_config : cJSON :=
  jobject "HostConfig" [ jnull "Links"; jobject "PortBindings" [] ].

Definition document (id image : string) (rest : list cJSON) : cJSON :=
  jdocument (jstring "Id" id :: jstring "Image" image
             :: jstring "Created" "2024-01-01T00:00:00Z" :: rest).

Definition doc_a : cJSON := document "a" "img-a" [config_full; state_of 0 true false; host_config].
Definition doc_b : cJSON := document "b" "img-b" [config_full; state_of 0 false false; host_config].
Definition doc_c : cJSON := document "c" "img-c" [config_no_labels; state_of 137 true false; host_config].
Definition doc_no_config (id : string) : cJSON :=
  document id "img" [state_of 0 true false; host_config].

(** A printer that gives every node the same text and the null pointer its
    own; the properties below do not depend on the text. *)
Definition print_opaque (item : option cJSON) : c_str :=
  match item with
  | Some _ => Some "<json>"
  | None => None
  end.

(** A daemon that knows the containers of [table], in this order, and
    answers an inspection request with the document stored for it. *)
Fixpoint lookup_response (table : list (string * option cJSON)) (request : string)
  : list (option cJSON) :=
  match table with
  | [] => []
  | (id, doc) :: table' =>
      if String.eqb request (restDockerInspect id) then [doc]
      else lookup_response table' request
  end.

Definition daemon (table : list (string * option cJSON)) : Collaborators :=
  mk_collaborators
    (fun request =>
       match request with
       | [r] => lookup_response table r
       | _ => []
       end)
    (fun _ => map fst table)
    print_opaque
    (fun _ => (0%Z, "node-1")).

(** Documents for the state derivation. *)
Definition doc_failed_running : cJSON := document "c" "img" [state_of 137 true false].
Definition doc_paused : cJSON := document "p" "img" [state_of 0 false true].

(** A complete document but for the flags of a failed state. *)
Definition doc_failed_no_flags : cJSON :=
  document "f" "img-f" [config_full; state_failed_no_flags; host_config].

(** A document with a compose label and no [Hostname]. *)
Definition doc_no_hostname : cJSON :=
  document "n" "img-n" [config_no_hostname; state_of 0 true false; host_config].

(** A document with neither sub-objects nor [Id]. *)
Definition doc_bare : cJSON := jdocument [jstring "Image" "img"].

(** Hosts. *)
Definition no_containers : Collaborators := daemon [].
Definition one_container : Collaborators := daemon [("a", Some doc_a)].
Definition two_containers : Collaborators :=
  daemon [("a", Some doc_a); ("b", Some doc_b)].
Definition first_lacks_config : Collaborators :=
  daemon [("a", Some (doc_no_config "a")); ("b", Some doc_b)].

(** The record [InspectContainer] builds from [doc_a]. *)
Definition record_a : Container_ContainerInventory_Class :=
  {| InstanceID := Some (Some "a");
     ImageId := Some (Some "img-a");
     CreatedTime := Some (Some "2024-01-01T00:00:00Z");
     ContainerHostname := Some (Some "h1");
     EnvironmentVar := Some (Some "<json>");
     Command := Some (Some "<json>");
     ComposeGroup := Some (Some "grp");
     ExitCode := Some 0%Z;
     State := Some (Some "Running");
     Links := Some (Some "<json>");
     Ports := Some (Some "<json>") |}.

(** The record [InspectContainer] builds from [doc_no_config "a"]. *)
Definition record_no_config : Container_ContainerInventory_Class :=
  {| InstanceID := Some (Some "a");
     ImageId := Some (Some "img");
     CreatedTime := Some (Some "2024-01-01T00:00:00Z");
     ContainerHostname := None;
     EnvironmentVar := None;
     Command := None;
     ComposeGroup := None;
     ExitCode := Some 0%Z;
     State := Some (Some "Running");
     Links := Some (Some "<json>");
     Ports := Some (Some "<json>") |}.

(** A host that cannot tell its name. *)
Definition unnamed (table : list (string * option cJSON)) : Collaborators :=
  mk_collaborators (getResponse (daemon table)) (listContainer (daemon table))
    print_opaque (fun _ => ((-1)%Z, "")).

(** A document with the identity members only. *)
Definition doc_identity_only : cJSON := document "z" "img-z" [].

(** A host whose only container has no sub-objects. *)
Definition one_identity_only : Collaborators := daemon [("z", Some doc_identity_only)].

(** A host whose only container cannot be inspected. *)
Definition one_uninspectable : Collaborators := daemon [("a", None)].

(** A complete document whose [State] carries no timestamps. *)
Definition doc_round_trip : cJSON :=
  jdocument
    [ jstring "Id" "abc123"; jstring "Image" "img1";
      jstring "Created" "2024-01-01T00:00:00Z";
      config_full;
      jobject "State" [ jnumber "ExitCode" 0; jbool "Running" true; jbool "Paused" false ];
      host_config ].


(** A host of three containers: no document for the first, no [Config] in
    the document of the second, a complete document for the third. *)
Definition mixed_containers : Collaborators :=
  daemon [("a", None); ("b", Some (doc_no_config "b")); ("c", Some doc_c)].

End Fixtures.

(* ================================================================== *)
(** ** Proof tools *)

Open Scope list_scope.

Ltac unfold_prog :=
  unfold outcome_of, final_instance, final_log, bind, deref, discard_member,
    update, warn, ret in *.

(** Case analysis on every lookup and every test the goal still branches
    on. *)
Ltac split_lookups :=
  repeat match goal with
         | |- context [match cJSON_GetObjectItem ?o ?n with _ => _ end] =>
             destruct (cJSON_GetObjectItem o n) eqn:?
         | |- context [if negb (?a =? ?b)%Z then _ else _] =>
             destruct (Z.eqb_spec a b)
         end; cbn [negb fst snd] in *.

(** Looking the timestamps up changes neither the record nor the log. *)
Lemma timestamps_keep_frame (state : cJSON) (m : M Frame unit) (fr : Frame) :
  snd ((m ;;
        discard_member (cJSON_GetObjectItem state "StartedAt") ;;
        discard_member (cJSON_GetObjectItem state "FinishedAt")) fr) = snd (m fr).
Proof.
  unfold_prog. destruct (m fr) as [[[]|f] fr']; reflexivity.
Qed.

(* ================================================================== *)
(** ** State derivation ([ObtainContainerState]) *)

Section StateDerivation.

Variables entry state exitCodeItem : cJSON.
Hypothesis state_present : cJSON_GetObjectItem entry "State" = Some state.
Hypothesis exit_code_present : cJSON_GetObjectItem state "ExitCode" = Some exitCodeItem.

(** With [State] and [ExitCode] present the call reduces to the store of the
    exit code followed by the decision and the two timestamp reads. *)
Lemma ObtainContainerState_unfold (fr : Frame) :
  snd (ObtainContainerState entry fr) =
  snd ((update (ExitCode_value (valueint exitCodeItem)) ;;
        if negb (valueint exitCodeItem =? 0)%Z then
          update (State_value (Some "Failed"))
        else
          running <- deref (cJSON_GetObjectItem state "Running") ;;
          if negb (valueint running =? 0)%Z then
            update (State_value (Some "Running"))
          else
            paused <- deref (cJSON_GetObjectItem state "Paused") ;;
            if negb (valueint paused =? 0)%Z then
              update (State_value (Some "Paused"))
            else
              update (State_value (Some "Stopped"))) fr).
Proof.
  unfold ObtainContainerState. rewrite state_present.
  unfold bind at 1. unfold deref at 1. rewrite exit_code_present.
  destruct fr as [instance l].
  set (decide := if negb (valueint exitCodeItem =? 0)%Z then _ else _).
  pose proof (timestamps_keep_frame state
                (update (ExitCode_value (valueint exitCodeItem)) ;; decide)
                (instance, l)) as H.
  rewrite <- H. unfold bind, update. cbn.
  destruct (decide (ExitCode_value (valueint exitCodeItem) instance, l))
    as [[[]|f] fr']; reflexivity.
Qed.

(** C1. For every inspection document whose [State] sub-object is present
    and carries an [ExitCode]: the exit code read is stored in the record
    whatever its value, and when it is not zero the record's [State] is set
    to "Failed", whatever the [Running] and [Paused] members are (present or
    not, truthy or not).  The log is left as it was. *)
Theorem ObtainContainerState_nonzero_exit_code_is_Failed
    (instance : Container_ContainerInventory_Class) (l : Syslog) :
  let run := ObtainContainerState entry (instance, l) in
  ExitCode (final_instance run) = Some (valueint exitCodeItem) /\
  (valueint exitCodeItem <> 0%Z -> State (final_instance run) = Some (Some "Failed")) /\
  final_log run = l.
Proof.
  cbv zeta. unfold final_instance, final_log.
  rewrite ObtainContainerState_unfold. unfold_prog. cbn.
  split_lookups; cbn; repeat split; intros; try reflexivity; try contradiction;
    split_lookups; cbn; try reflexivity; try contradiction.
Qed.

(** C2. For every inspection document whose [State] sub-object is present
    and whose [ExitCode] is zero: a truthy [Running] flag gives the state
    "Running"; a falsy [Running] and a truthy [Paused] give "Paused"; both
    falsy give "Stopped".  Together with the "Failed" branch the derivation
    is total: for every combination of [ExitCode], [Running] and [Paused]
    the record's [State] is exactly one of the four values. *)
Theorem ObtainContainerState_zero_exit_code_by_flags
    (instance : Container_ContainerInventory_Class) (l : Syslog) :
  let run := ObtainContainerState entry (instance, l) in
  (valueint exitCodeItem = 0%Z ->
   (forall running,
       cJSON_GetObjectItem state "Running" = Some running ->
       valueint running <> 0%Z ->
       State (final_instance run) = Some (Some "Running")) /\
   (forall running paused,
       cJSON_GetObjectItem state "Running" = Some running ->
       valueint running = 0%Z ->
       cJSON_GetObjectItem state "Paused" = Some paused ->
       valueint paused <> 0%Z ->
       State (final_instance run) = Some (Some "Paused")) /\
   (forall running paused,
       cJSON_GetObjectItem state "Running" = Some running ->
       valueint running = 0%Z ->
       cJSON_GetObjectItem state "Paused" = Some paused ->
       valueint paused = 0%Z ->
       State (final_instance run) = Some (Some "Stopped"))) /\
  (forall running paused,
      cJSON_GetObjectItem state "Running" = Some running ->
      cJSON_GetObjectItem state "Paused" = Some paused ->
      exists! s : string,
        In s ["Failed"; "Running"; "Paused"; "Stopped"] /\
        State (final_instance run) = Some (Some s)).
Proof.
  cbv zeta. unfold final_instance.
  rewrite ObtainContainerState_unfold. unfold_prog. cbn -[In].
  split.
  - intros Hzero. rewrite Hzero. cbn.
    repeat split; intros running; intros.
    + rewrite H. destruct (Z.eqb_spec (valueint running) 0); [contradiction|reflexivity].
    + rewrite H, H0, H1. cbn.
      destruct (Z.eqb_spec (valueint paused) 0); [contradiction|reflexivity].
    + rewrite H, H0, H1, H2. reflexivity.
  - intros running paused Hr Hp. rewrite Hr, Hp.
    assert (pick : forall s, In s ["Failed"; "Running"; "Paused"; "Stopped"] ->
                     forall v : option c_str,
                       v = Some (Some s) ->
                       exists! s', In s' ["Failed"; "Running"; "Paused"; "Stopped"] /\
                                   v = Some (Some s')).
    { intros s Hin v Hs. exists s. split; [now split|].
      intros s' [_ Hs']. congruence. }
    destruct (Z.eqb_spec (valueint exitCodeItem) 0); cbn -[In].
    + destruct (Z.eqb_spec (valueint running) 0); cbn -[In].
      * destruct (Z.eqb_spec (valueint paused) 0); cbn -[In].
        -- apply (pick "Stopped"); cbn; auto.
        -- apply (pick "Paused"); cbn; auto.
      * apply (pick "Running"); cbn; auto.
    + apply (pick "Failed"); cbn; auto.
Qed.

End StateDerivation.

(** A failed exit code wins over a [Running] flag that is still set. *)
Lemma ObtainContainerState_nonzero_exit_code_is_Failed_witness :
  State (final_instance (ObtainContainerState Fixtures.doc_failed_running (new_instance, [])))
  = Some (Some "Failed").
Proof.
  apply (ObtainContainerState_nonzero_exit_code_is_Failed
           Fixtures.doc_failed_running
           (Fixtures.state_of 137 true false)
           (Fixtures.jnumber "ExitCode" 137)
           eq_refl eq_refl new_instance []).
  discriminate.
Defined.

Lemma ObtainContainerState_zero_exit_code_by_flags_witness :
  State (final_instance (ObtainContainerState Fixtures.doc_paused (new_instance, [])))
  = Some (Some "Paused").
Proof.
  apply (proj1 (ObtainContainerState_zero_exit_code_by_flags
                  Fixtures.doc_paused
                  (Fixtures.state_of 0 false true)
                  (Fixtures.jnumber "ExitCode" 0)
                  eq_refl eq_refl new_instance []) eq_refl)
    with (running := Fixtures.jbool "Running" false)
         (paused := Fixtures.jbool "Paused" true).
  - reflexivity.
  - reflexivity.
  - reflexivity.
  - discriminate.
Defined.

(* ================================================================== *)
(** ** The branch taken when a sub-object is absent *)

Lemma ObtainContainerConfig_absent env entry fr :
  cJSON_GetObjectItem entry "Config" = None ->
  ObtainContainerConfig env entry fr = logging_branch entry config_warning fr.
Proof.
  intros H. unfold ObtainContainerConfig, logging_branch. rewrite H. unfold_prog.
  destruct fr. destruct (cJSON_GetObjectItem entry "Id"); reflexivity.
Qed.

Lemma ObtainContainerState_absent entry fr :
  cJSON_GetObjectItem entry "State" = None ->
  ObtainContainerState entry fr = logging_branch entry state_warning fr.
Proof.
  intros H. unfold ObtainContainerState, logging_branch. rewrite H. unfold_prog.
  destruct fr. destruct (cJSON_GetObjectItem entry "Id"); reflexivity.
Qed.

Lemma ObtainContainerHostConfig_absent env entry fr :
  cJSON_GetObjectItem entry "HostConfig" = None ->
  ObtainContainerHostConfig env entry fr = logging_branch entry host_config_warning fr.
Proof.
  intros H. unfold ObtainContainerHostConfig, logging_branch. rewrite H. unfold_prog.
  destruct fr. destruct (cJSON_GetObjectItem entry "Id"); reflexivity.
Qed.

(** C10. In each of the three sub-extractors the branch taken when the
    sub-object is absent reads the top-level [Id] without a check.  For a
    document that lacks the sub-object and [Id], the logging branch is a
    null dereference: the call faults and nothing is logged.  With [Id]
    present the same branch returns normally, the record untouched and one
    warning carrying the document's id appended to the log. *)
Theorem absent_sub_object_warning_needs_Id
    (env : Collaborators) (entry : cJSON)
    (instance : Container_ContainerInventory_Class) (l : Syslog) :
  (cJSON_GetObjectItem entry "Id" = None ->
   (cJSON_GetObjectItem entry "Config" = None ->
    ObtainContainerConfig env entry (instance, l) = (Fault NullDereference, (instance, l))) /\
   (cJSON_GetObjectItem entry "State" = None ->
    ObtainContainerState entry (instance, l) = (Fault NullDereference, (instance, l))) /\
   (cJSON_GetObjectItem entry "HostConfig" = None ->
    ObtainContainerHostConfig env entry (instance, l) = (Fault NullDereference, (instance, l)))) /\
  (forall id, cJSON_GetObjectItem entry "Id" = Some id ->
   (cJSON_GetObjectItem entry "Config" = None ->
    ObtainContainerConfig env entry (instance, l) =
    (Ok tt, (instance, l ++ [mk_log_entry LOG_WARNING config_warning (valuestring id)]))) /\
   (cJSON_GetObjectItem entry "State" = None ->
    ObtainContainerState entry (instance, l) =
    (Ok tt, (instance, l ++ [mk_log_entry LOG_WARNING state_warning (valuestring id)]))) /\
   (cJSON_GetObjectItem entry "HostConfig" = None ->
    ObtainContainerHostConfig env entry (instance, l) =
    (Ok tt, (instance, l ++ [mk_log_entry LOG_WARNING host_config_warning (valuestring id)]))))%list.
Proof.
  split; [intros Hid | intros id Hid]; repeat split; intros H.
  all: first [ rewrite (ObtainContainerConfig_absent _ _ _ H)
             | rewrite (ObtainContainerState_absent _ _ H)
             | rewrite (ObtainContainerHostConfig_absent _ _ _ H) ].
  all: unfold logging_branch; rewrite Hid; reflexivity.
Qed.

Lemma absent_sub_object_warning_needs_Id_witness :
  ObtainContainerConfig Fixtures.no_containers Fixtures.doc_bare (new_instance, [])
  = (Fault NullDereference, (new_instance, [])).
Proof.
  apply (proj1 (proj1 (absent_sub_object_warning_needs_Id
                         Fixtures.no_containers Fixtures.doc_bare new_instance [])
                 eq_refl)).
  reflexivity.
Defined.

(* ================================================================== *)
(** ** The compose group ([ObtainContainerConfig]) *)

Section ComposeGroup.

Variable env : Collaborators.
Variables entry config hostname : cJSON.
Hypothesis config_present : cJSON_GetObjectItem entry "Config" = Some config.
Hypothesis hostname_present : cJSON_GetObjectItem config "Hostname" = Some hostname.

Lemma ObtainContainerConfig_present instance l :
  ObtainContainerConfig env entry (instance, l) =
  (Ok tt,
   (let filled :=
      Command_value (cJSON_Print env (cJSON_GetObjectItem config "Cmd"))
        (EnvironmentVar_value (cJSON_Print env (cJSON_GetObjectItem config "Env"))
           (ContainerHostname_value (valuestring hostname) instance)) in
    match compose_label config with
    | Some groupName => ComposeGroup_value (valuestring groupName) filled
    | None => filled
    end, l)).
Proof.
  unfold ObtainContainerConfig, compose_label.
  rewrite config_present. unfold_prog. rewrite hostname_present. cbn.
  destruct (cJSON_GetObjectItem config "Labels") as [labels|]; [|reflexivity].
  destruct (cJSON_GetObjectItem labels "com.docker.compose.project"); reflexivity.
Qed.

(** C9, amended. For every inspection document with a present [Config]
    sub-object that carries [Hostname] (the member line 44 reads before the
    labels are looked at): the call returns normally and logs nothing; when [Config] has a
    [Labels] member that has the key "com.docker.compose.project" the
    record's [ComposeGroup] is set to that label's string; when [Labels] or
    the key is missing [ComposeGroup] is left as it was.  On a record whose
    [ComposeGroup] was absent, it is therefore set if and only if the label
    exists, and it is never set to an empty string in place of a missing
    label. *)
Theorem ObtainContainerConfig_ComposeGroup_iff_label
    (instance : Container_ContainerInventory_Class) (l : Syslog) :
  let run := ObtainContainerConfig env entry (instance, l) in
  outcome_of run = Ok tt /\
  final_log run = l /\
  (forall labels groupName,
      cJSON_GetObjectItem config "Labels" = Some labels ->
      cJSON_GetObjectItem labels "com.docker.compose.project" = Some groupName ->
      ComposeGroup (final_instance run) = Some (valuestring groupName)) /\
  ((cJSON_GetObjectItem config "Labels" = None \/
    exists labels, cJSON_GetObjectItem config "Labels" = Some labels /\
                   cJSON_GetObjectItem labels "com.docker.compose.project" = None) ->
   ComposeGroup (final_instance run) = ComposeGroup instance) /\
  (ComposeGroup instance = None ->
   (ComposeGroup (final_instance run) <> None <->
    exists labels groupName,
      cJSON_GetObjectItem config "Labels" = Some labels /\
      cJSON_GetObjectItem labels "com.docker.compose.project" = Some groupName)).
Proof.
  cbv zeta. rewrite ObtainContainerConfig_present.
  unfold outcome_of, final_log, final_instance, compose_label. cbn [fst snd].
  split; [reflexivity|]. split; [reflexivity|].
  split; [|split].
  - intros labels groupName Hl Hg. rewrite Hl, Hg. reflexivity.
  - intros [Hl | [labels [Hl Hg]]]; rewrite Hl; [|rewrite Hg]; reflexivity.
  - intros Hnone.
    destruct (cJSON_GetObjectItem config "Labels") as [labels|] eqn:Hl.
    + destruct (cJSON_GetObjectItem labels "com.docker.compose.project")
        as [groupName|] eqn:Hg; cbn.
      * split; [intros _; exists labels, groupName; now split | discriminate].
      * rewrite Hnone. split; [congruence|].
        intros [labels' [groupName [E Hg']]].
        injection E as <-. congruence.
    + cbn. rewrite Hnone. split; [congruence|].
      intros [labels [groupName [E _]]]. discriminate.
Qed.

End ComposeGroup.

Lemma ObtainContainerConfig_ComposeGroup_iff_label_witness :
  ComposeGroup (final_instance
                  (ObtainContainerConfig Fixtures.no_containers Fixtures.doc_a (new_instance, [])))
  = Some (Some "grp").
Proof.
  apply (proj1 (proj2 (proj2 (ObtainContainerConfig_ComposeGroup_iff_label
                                Fixtures.no_containers Fixtures.doc_a
                                Fixtures.config_full
                                (Fixtures.jstring "Hostname" "h1")
                                eq_refl eq_refl new_instance []))))
    with (labels := Fixtures.jobject "Labels"
                      [Fixtures.jstring "com.docker.compose.project" "grp"])
         (groupName := Fixtures.jstring "com.docker.compose.project" "grp").
  - reflexivity.
  - reflexivity.
Defined.

(** A [Labels] member without the key leaves [ComposeGroup] absent, and
    nothing is logged. *)
Example ComposeGroup_absent_without_key :
  ObtainContainerConfig Fixtures.no_containers
    (Fixtures.document "o" "img" [Fixtures.config_other_label]) (new_instance, [])
  = (Ok tt,
     (EnvironmentVar_value None
        (Command_value None (ContainerHostname_value (Some "h1") new_instance)), [])).
Proof. reflexivity. Qed.

(** C9, as stated, fails: this [Config] is present and has the [Labels]
    member and, in it, the key "com.docker.compose.project", yet
    [ComposeGroup] is not set.  The document has no [Hostname] and the
    extractor faults on line 44, before it looks at the labels. *)
Lemma ComposeGroup_not_set_without_Hostname :
  cJSON_GetObjectItem Fixtures.doc_no_hostname "Config" = Some Fixtures.config_no_hostname /\
  compose_label Fixtures.config_no_hostname
  = Some (Fixtures.jstring "com.docker.compose.project" "grp") /\
  ObtainContainerConfig Fixtures.no_containers Fixtures.doc_no_hostname (new_instance, [])
  = (Fault NullDereference, (new_instance, [])) /\
  ComposeGroup (final_instance
                  (ObtainContainerConfig Fixtures.no_containers Fixtures.doc_no_hostname
                     (new_instance, []))) = None.
Proof. repeat split. Qed.

(* ================================================================== *)
(** ** Which documents the extraction survives *)

Lemma outcome_of_bind {St A B : Type} (m : M St A) (k : A -> M St B) (s : St) :
  outcome_of ((x <- m ;; k x) s) =
  match outcome_of (m s) with
  | Ok a => outcome_of (k a (snd (m s)))
  | Fault f => Fault f
  end.
Proof.
  unfold outcome_of, bind. destruct (m s) as [[a|f] s']; reflexivity.
Qed.

Lemma ObtainContainerConfig_outcome env entry fr :
  has entry "Id" = true ->
  outcome_of (ObtainContainerConfig env entry fr) =
  if config_dereferences_safe entry then Ok tt else Fault NullDereference.
Proof.
  unfold config_dereferences_safe, has, ObtainContainerConfig. intros Hid.
  destruct fr as [instance l]. unfold_prog.
  split_lookups; try discriminate; reflexivity.
Qed.

Lemma ObtainContainerState_outcome entry fr :
  has entry "Id" = true ->
  outcome_of (ObtainContainerState entry fr) =
  if state_dereferences_safe entry then Ok tt else Fault NullDereference.
Proof.
  unfold state_dereferences_safe, flags_dereferences_safe, has, ObtainContainerState.
  intros Hid. destruct fr as [instance l]. unfold_prog.
  destruct (cJSON_GetObjectItem entry "State") as [state|].
  - destruct (cJSON_GetObjectItem state "ExitCode") as [exitCodeItem|]; [|reflexivity].
    cbn. destruct (Z.eqb_spec (valueint exitCodeItem) 0); cbn.
    + destruct (cJSON_GetObjectItem state "Running") as [running|]; [|reflexivity].
      cbn. destruct (Z.eqb_spec (valueint running) 0); cbn.
      * destruct (cJSON_GetObjectItem state "Paused") as [paused|]; [|reflexivity].
        cbn. destruct (Z.eqb_spec (valueint paused) 0); reflexivity.
      * reflexivity.
    + reflexivity.
  - destruct (cJSON_GetObjectItem entry "Id"); [reflexivity | discriminate].
Qed.

Lemma ObtainContainerHostConfig_outcome env entry fr :
  has entry "Id" = true ->
  outcome_of (ObtainContainerHostConfig env entry fr) = Ok tt.
Proof.
  unfold has, ObtainContainerHostConfig. intros Hid.
  destruct fr as [instance l]. unfold_prog.
  split_lookups; try discriminate; reflexivity.
Qed.

Lemma InspectContainer_present_outcome env entry fr :
  outcome_of (InspectContainer_present env entry fr) =
  if dereferences_safe entry then Ok tt else Fault NullDereference.
Proof.
  unfold InspectContainer_present, dereferences_safe.
  set (extractors := (ObtainContainerConfig env entry ;;
                      ObtainContainerState entry ;;
                      ObtainContainerHostConfig env entry)).
  destruct fr as [instance l].
  unfold has at 1 2 3.
  destruct (cJSON_GetObjectItem entry "Id") as [id|] eqn:Eid; [|reflexivity].
  assert (Hid : has entry "Id" = true) by (unfold has; now rewrite Eid).
  destruct (cJSON_GetObjectItem entry "Image") as [image|]; [|reflexivity].
  destruct (cJSON_GetObjectItem entry "Created") as [created|]; [|reflexivity].
  unfold_prog.
  cbn [andb]. subst extractors. cbv beta.
  match goal with
  | |- context [ObtainContainerConfig env entry ?s] =>
      pose proof (ObtainContainerConfig_outcome env entry s Hid) as Hc;
      destruct (ObtainContainerConfig env entry s) as [oc sc]
  end.
  unfold outcome_of in Hc. cbn [fst] in Hc. subst oc.
  destruct (config_dereferences_safe entry); cbn [andb fst]; [|reflexivity].
  pose proof (ObtainContainerState_outcome entry sc Hid) as Hs.
  destruct (ObtainContainerState entry sc) as [os ss].
  unfold outcome_of in Hs. cbn [fst] in Hs. subst os.
  destruct (state_dereferences_safe entry); cbn [fst]; [|reflexivity].
  apply (ObtainContainerHostConfig_outcome env entry ss Hid).
Qed.

Lemma expected_children_suffice entry :
  expected_children_present entry = true -> dereferences_safe entry = true.
Proof.
  unfold expected_children_present, dereferences_safe,
    config_dereferences_safe, state_dereferences_safe, flags_dereferences_safe.
  destruct (has entry "Id"), (has entry "Image"), (has entry "Created");
    cbn [andb]; try discriminate.
  destruct (cJSON_GetObjectItem entry "Config") as [config|].
  - destruct (has config "Hostname"); cbn [andb]; [|discriminate].
    destruct (cJSON_GetObjectItem entry "State") as [state|]; [|reflexivity].
    unfold has.
    destruct (cJSON_GetObjectItem state "ExitCode") as [exitCodeItem|];
      cbn [andb]; [|discriminate].
    destruct (cJSON_GetObjectItem state "Running") as [running|];
      cbn [andb]; [|discriminate].
    destruct (cJSON_GetObjectItem state "Paused"); cbn [andb]; [|discriminate].
    intros _.
    destruct (negb (valueint exitCodeItem =? 0)%Z); [reflexivity|].
    destruct (negb (valueint running =? 0)%Z); reflexivity.
  - cbn [andb].
    destruct (cJSON_GetObjectItem entry "State") as [state|]; [|reflexivity].
    unfold has.
    destruct (cJSON_GetObjectItem state "ExitCode") as [exitCodeItem|];
      cbn [andb]; [|discriminate].
    destruct (cJSON_GetObjectItem state "Running") as [running|];
      cbn [andb]; [|discriminate].
    destruct (cJSON_GetObjectItem state "Paused"); cbn [andb]; [|discriminate].
    intros _.
    destruct (negb (valueint exitCodeItem =? 0)%Z); [reflexivity|].
    destruct (negb (valueint running =? 0)%Z); reflexivity.
Qed.

(** C6, as stated, fails: a document whose [State] is present and has
    neither [Running] nor [Paused] is extracted without a fault when its
    exit code is not zero, because the flags are looked up only on the zero
    branch. *)
Lemma missing_flags_not_fatal_when_failed :
  has Fixtures.state_failed_no_flags "Running" = false /\
  has Fixtures.state_failed_no_flags "Paused" = false /\
  cJSON_GetObjectItem Fixtures.doc_failed_no_flags "State" = Some Fixtures.state_failed_no_flags /\
  expected_children_present Fixtures.doc_failed_no_flags = false /\
  InspectContainer_present Fixtures.no_containers Fixtures.doc_failed_no_flags (new_instance, [])
  = (Ok tt,
     ({| InstanceID := Some (Some "f");
         ImageId := Some (Some "img-f");
         CreatedTime := Some (Some "2024-01-01T00:00:00Z");
         ContainerHostname := Some (Some "h1");
         EnvironmentVar := Some (Some "<json>");
         Command := Some (Some "<json>");
         ComposeGroup := Some (Some "grp");
         ExitCode := Some 137%Z;
         State := Some (Some "Failed");
         Links := Some (Some "<json>");
         Ports := Some (Some "<json>") |}, [])).
Proof. repeat split. Qed.

(** C6, amended. The extraction of a present document is fatal (a null
    dereference) exactly when a member it reads through an unchecked pointer
    is missing: [Id], [Image] or [Created] at the top level; [Hostname] under
    a present [Config]; under a present [State], [ExitCode], [Running] when
    the exit code is zero, [Paused] when the exit code is zero and [Running]
    is falsy.  [StartedAt] and [FinishedAt] are looked up and never read: a
    document without them is extracted like one with them.  The extraction
    returns normally exactly when none of the members read is missing; in
    particular it does when every expected child of the present sub-objects
    is there. *)
Theorem extraction_fatal_iff_dereferenced_member_missing
    (env : Collaborators) (entry : cJSON) (fr : Frame) :
  (outcome_of (InspectContainer_present env entry fr) = Fault NullDereference
   <-> dereferences_safe entry = false) /\
  (outcome_of (InspectContainer_present env entry fr) = Ok tt
   <-> dereferences_safe entry = true) /\
  (expected_children_present entry = true ->
   outcome_of (InspectContainer_present env entry fr) = Ok tt).
Proof.
  rewrite InspectContainer_present_outcome.
  split; [|split].
  - destruct (dereferences_safe entry); split; congruence.
  - destruct (dereferences_safe entry); split; congruence.
  - intros H. rewrite (expected_children_suffice _ H). reflexivity.
Qed.

Lemma extraction_fatal_iff_dereferenced_member_missing_witness :
  outcome_of (InspectContainer_present Fixtures.no_containers Fixtures.doc_a (new_instance, []))
  = Ok tt.
Proof.
  apply (proj2 (proj2 (extraction_fatal_iff_dereferenced_member_missing
                         Fixtures.no_containers Fixtures.doc_a (new_instance, [])))).
  reflexivity.
Defined.

(* ================================================================== *)
(** ** The host-name stamp of [QueryAll] *)

Lemma vector_update_out_of_range {A : Type} (v : list A) (n : nat) (f : A -> A) :
  length v <= n -> vector_update v n f = None.
Proof.
  revert n. induction v as [|x v IH]; intros n Hn; [reflexivity|].
  destruct n as [|n]; cbn in *; [lia|].
  rewrite IH by lia. reflexivity.
Qed.

Lemma vector_update_last {A : Type} (v : list A) (x : A) (f : A -> A) :
  vector_update (v ++ [x]) (length v) f = Some (v ++ [f x]).
Proof.
  induction v as [|y v IH]; cbn; [reflexivity|].
  rewrite IH. reflexivity.
Qed.

(** The body of the loop, once the inspection has returned. *)
Lemma QueryAll_body_after_inspection env size hostname id result l instance l' :
  InspectContainer env id l = (Ok instance, l') ->
  QueryAll_body env size hostname id result l =
  subscript_update (result ++ [instance]) (size - 1) (ImageId_value (Some hostname)) l'.
Proof.
  intros H. unfold QueryAll_body, bind. rewrite H. reflexivity.
Qed.

Lemma QueryAll_body_inspection_fault env size hostname id result l f l' :
  InspectContainer env id l = (Fault f, l') ->
  QueryAll_body env size hostname id result l = (Fault f, l').
Proof.
  intros H. unfold QueryAll_body, bind. rewrite H. reflexivity.
Qed.

(** A fault ends the loop. *)
Lemma QueryAll_loop_first_fault env size hostname id rest result l f l' :
  QueryAll_body env size hostname id result l = (Fault f, l') ->
  QueryAll_loop env size hostname (id :: rest) result l = (Fault f, l').
Proof.
  intros H. cbn [QueryAll_loop]. unfold bind. rewrite H. reflexivity.
Qed.

Lemma QueryAll_unfold env l :
  QueryAll env l =
  QueryAll_loop env (length (listContainer env true)) (host_name env)
    (listContainer env true) [] l.
Proof.
  unfold QueryAll, host_name. destruct (gethostname env 256) as [rc name]. reflexivity.
Qed.

(** C4. For every identifier list of length at least 2 and every iteration
    [i < length - 1] (the vector [result] holds [i] records when the
    iteration starts): after the [push_back] the vector holds [i + 1]
    records and the stamp subscripts it at [length - 1], which is out of
    range, so the body of the loop faults with an out-of-range subscript as
    soon as the inspection has returned.  Only at the last iteration is the
    subscript in range.  [QueryAll] itself therefore never returns normally
    on such a list. *)
Theorem QueryAll_stamp_out_of_range_before_last
    (env : Collaborators) (hostname : string) (containerIds : list string) :
  2 <= length containerIds ->
  (forall i result instance,
      i < length containerIds - 1 ->
      length result = i ->
      length (result ++ [instance]) = i + 1 /\
      ~ (length containerIds - 1 < length (result ++ [instance])) /\
      vector_update (result ++ [instance]) (length containerIds - 1)
        (ImageId_value (Some hostname)) = None) /\
  (forall i id result l instance l',
      i < length containerIds - 1 ->
      length result = i ->
      InspectContainer env id l = (Ok instance, l') ->
      QueryAll_body env (length containerIds) hostname id result l
      = (Fault OutOfBounds, l')) /\
  (forall result instance,
      length result = length containerIds - 1 ->
      vector_update (result ++ [instance]) (length containerIds - 1)
        (ImageId_value (Some hostname))
      = Some (result ++ [ImageId_value (Some hostname) instance])) /\
  (listContainer env true = containerIds ->
   forall l, exists f, outcome_of (QueryAll env l) = Fault f).
Proof.
  intros Hsize.
  assert (stamp : forall i result (instance : Container_ContainerInventory_Class),
             i < length containerIds - 1 ->
             length result = i ->
             vector_update (result ++ [instance]) (length containerIds - 1)
               (ImageId_value (Some hostname)) = None).
  { intros i result instance Hi Hlen. apply vector_update_out_of_range.
    rewrite length_app. cbn. lia. }
  split; [|split; [|split]].
  - intros i result instance Hi Hlen. rewrite length_app. cbn.
    repeat split; [lia | lia | now apply (stamp i)].
  - intros i id result l instance l' Hi Hlen Hinspect.
    rewrite (QueryAll_body_after_inspection _ _ _ _ _ _ _ _ Hinspect).
    unfold subscript_update. now rewrite (stamp i).
  - intros result instance Hlen. rewrite <- Hlen. apply vector_update_last.
  - intros Hids l. rewrite QueryAll_unfold, Hids.
    destruct containerIds as [|id rest]; [cbn in Hsize; lia|].
    destruct (InspectContainer env id l) as [[instance|f] l'] eqn:Hinspect.
    + exists OutOfBounds.
      erewrite QueryAll_loop_first_fault; [reflexivity|].
      rewrite (QueryAll_body_after_inspection _ _ _ _ _ _ _ _ Hinspect).
      unfold subscript_update.
      rewrite vector_update_out_of_range; [reflexivity|]. cbn in *. lia.
    + exists f.
      erewrite QueryAll_loop_first_fault; [reflexivity|].
      eapply QueryAll_body_inspection_fault. exact Hinspect.
Qed.

Lemma QueryAll_stamp_out_of_range_before_last_witness :
  QueryAll_body Fixtures.two_containers 2 "node-1" "a" [] [] = (Fault OutOfBounds, []).
Proof.
  apply (proj1 (proj2 (QueryAll_stamp_out_of_range_before_last
                         Fixtures.two_containers "node-1" ["a"; "b"] (le_n 2))))
    with (i := 0) (instance := Fixtures.record_a).
  - cbn. lia.
  - reflexivity.
  - reflexivity.
Defined.

(* ================================================================== *)
(** ** Collections of at most one container *)

Lemma QueryAll_no_container env l :
  listContainer env true = [] -> QueryAll env l = (Ok [], l).
Proof.
  intros H. rewrite QueryAll_unfold, H. reflexivity.
Qed.

Lemma QueryAll_single_container env id l instance l' :
  listContainer env true = [id] ->
  InspectContainer env id l = (Ok instance, l') ->
  QueryAll env l = (Ok [ImageId_value (Some (host_name env)) instance], l').
Proof.
  intros Hids Hinspect. rewrite QueryAll_unfold, Hids.
  cbn [QueryAll_loop length]. unfold bind.
  rewrite (QueryAll_body_after_inspection _ _ _ _ _ _ _ _ Hinspect).
  reflexivity.
Qed.

(* ================================================================== *)
(** ** Absent documents and absent sub-objects *)

(** An absent or null document: one warning carrying the requested
    identifier, the default record, a normal return. *)
Lemma InspectContainer_absent_document env id l :
  (getResponse env [restDockerInspect id] = [] \/
   exists rest, getResponse env [restDockerInspect id] = None :: rest) ->
  InspectContainer env id l =
  (Ok new_instance, l ++ [mk_log_entry LOG_WARNING inspect_warning (Some id)]).
Proof.
  unfold InspectContainer. intros [H | [rest H]]; rewrite H; reflexivity.
Qed.





(* ================================================================== *)
(** ** Collections of several containers *)

(** C3. Two containers "a" and "b", both inspected successfully, host name
    "node-1".  The first iteration pushes the record of "a", whose [ImageId]
    is the image of the document, and then stamps position
    [containerIds.size() - 1 = 1] of a vector of one record: position 0 is
    not the one written to and the subscript is out of range.  [QueryAll]
    faults there; it does not return two records stamped with the host
    name. *)
Theorem QueryAll_two_containers_first_record_not_stamped :
  listContainer Fixtures.two_containers true = ["a"; "b"] /\
  host_name Fixtures.two_containers = "node-1" /\
  InspectContainer Fixtures.two_containers "a" [] = (Ok Fixtures.record_a, []) /\
  ImageId Fixtures.record_a = Some (Some "img-a") /\
  vector_update ([] ++ [Fixtures.record_a]) (2 - 1) (ImageId_value (Some "node-1")) = None /\
  QueryAll Fixtures.two_containers [] = (Fault OutOfBounds, []).
Proof. repeat split. Qed.

(* ================================================================== *)
(** ** The inspection request ([restDockerInspect]) *)

Lemma append_length (s t : string) :
  String.length (s ++ t)%string = String.length s + String.length t.
Proof.
  induction s as [|c s IH]; cbn; [reflexivity | now rewrite IH].
Qed.

Lemma append_cancel_l (p s t : string) :
  (p ++ s)%string = (p ++ t)%string -> s = t.
Proof.
  induction p as [|c p IH]; cbn; intros H; [exact H|].
  injection H as H. exact (IH H).
Qed.

Lemma append_cancel_r (s t q : string) :
  (s ++ q)%string = (t ++ q)%string -> s = t.
Proof.
  revert t. induction s as [|c s IH]; intros [|d t] H; cbn in H.
  - reflexivity.
  - apply (f_equal String.length) in H. cbn in H. rewrite append_length in H. lia.
  - apply (f_equal String.length) in H. cbn in H. rewrite append_length in H. lia.
  - injection H as -> H. f_equal. exact (IH _ H).
Qed.

(** X1. Two identifiers that give the same inspection request are the same
    identifier: the request names its container. *)
Theorem restDockerInspect_injective (id1 id2 : string) :
  restDockerInspect id1 = restDockerInspect id2 -> id1 = id2.
Proof.
  unfold restDockerInspect. intros H.
  apply append_cancel_l in H. apply append_cancel_r in H. exact H.
Qed.

Lemma restDockerInspect_injective_witness :
  restDockerInspect "abc" = restDockerInspect "abc" /\ "abc" = "abc".
Proof.
  split; [reflexivity|].
  apply (restDockerInspect_injective "abc" "abc"). reflexivity.
Defined.

(* ================================================================== *)
(** ** What each extractor writes *)

(** Runs an extractor on an explicit frame through every lookup and test. *)
Ltac run_extractor :=
  unfold_prog; cbn;
  repeat (progress (split_lookups; cbn)).

(** X2. Each sub-extractor writes its own properties only, whether it
    returns or faults: [ObtainContainerConfig] leaves the identity, state
    and host-config properties of the record as they were,
    [ObtainContainerState] the identity, config and host-config properties
    (the timestamps it looks up are stored nowhere), and
    [ObtainContainerHostConfig] the identity, config and state
    properties. *)
Theorem extractors_keep_other_properties
    (env : Collaborators) (entry : cJSON)
    (instance : Container_ContainerInventory_Class) (l : Syslog) :
  let after_config := final_instance (ObtainContainerConfig env entry (instance, l)) in
  let after_state := final_instance (ObtainContainerState entry (instance, l)) in
  let after_host_config := final_instance (ObtainContainerHostConfig env entry (instance, l)) in
  (identity_properties after_config = identity_properties instance /\
   state_properties after_config = state_properties instance /\
   host_config_properties after_config = host_config_properties instance) /\
  (identity_properties after_state = identity_properties instance /\
   config_properties after_state = config_properties instance /\
   host_config_properties after_state = host_config_properties instance) /\
  (identity_properties after_host_config = identity_properties instance /\
   config_properties after_host_config = config_properties instance /\
   state_properties after_host_config = state_properties instance).
Proof.
  cbv zeta. split; [|split].
  - unfold ObtainContainerConfig. run_extractor; repeat split.
  - unfold ObtainContainerState. run_extractor; repeat split.
  - unfold ObtainContainerHostConfig. run_extractor; repeat split.
Qed.

(* ================================================================== *)
(** ** The inspection of a present document *)

(** A document none of whose dereferenced members is missing is extracted
    to the end. *)
Lemma InspectContainer_present_safe env entry instance l :
  dereferences_safe entry = true ->
  exists idItem image created r,
    cJSON_GetObjectItem entry "Id" = Some idItem /\
    cJSON_GetObjectItem entry "Image" = Some image /\
    cJSON_GetObjectItem entry "Created" = Some created /\
    InspectContainer_present env entry (instance, l)
    = (Ok tt, (r, l ++ absent_sub_object_warnings entry (valuestring idItem))) /\
    identity_properties r
    = (Some (valuestring idItem), Some (valuestring image), Some (valuestring created)).
Proof.
  unfold dereferences_safe, config_dereferences_safe, state_dereferences_safe,
    flags_dereferences_safe, absent_sub_object_warnings, has.
  intros Hsafe.
  destruct (cJSON_GetObjectItem entry "Id") as [idItem|] eqn:Hid; [|discriminate].
  destruct (cJSON_GetObjectItem entry "Image") as [image|] eqn:Himage; [|discriminate].
  destruct (cJSON_GetObjectItem entry "Created") as [created|] eqn:Hcreated; [|discriminate].
  exists idItem, image, created.
  unfold InspectContainer_present, ObtainContainerConfig, ObtainContainerState,
    ObtainContainerHostConfig.
  rewrite Hid, Himage, Hcreated.
  unfold_prog. cbn in Hsafe |- *.
  repeat (progress (split_lookups; cbn in Hsafe |- *)); try discriminate.
  all: eexists; repeat split.
  all: unfold syslog; rewrite <- ?app_assoc, ?app_nil_r; reflexivity.
Qed.

Lemma InspectContainer_with_document env id l entry :
  document_of env id = Some entry ->
  InspectContainer env id l =
  match InspectContainer_present env entry (new_instance, l) with
  | (Ok _, (instance', l')) => (Ok instance', l')
  | (Fault f, (_, l')) => (Fault f, l')
  end.
Proof.
  unfold document_of, InspectContainer.
  destruct (getResponse env [restDockerInspect id]) as [|[e|] rest];
    intros H; try discriminate.
  injection H as ->. reflexivity.
Qed.

Lemma document_of_None env id :
  document_of env id = None ->
  getResponse env [restDockerInspect id] = [] \/
  exists rest, getResponse env [restDockerInspect id] = None :: rest.
Proof.
  unfold document_of.
  destruct (getResponse env [restDockerInspect id]) as [|[e|] rest];
    intros H; try discriminate; [left | right; exists rest]; reflexivity.
Qed.

(** X3. When the transport returns no document for the request (an empty
    response or a null first element), [InspectContainer] returns normally
    the default record, no property set, and appends exactly one warning,
    which carries the requested identifier. *)
Theorem InspectContainer_without_document
    (env : Collaborators) (id : string) (l : Syslog) :
  document_of env id = None ->
  InspectContainer env id l =
  (Ok new_instance, l ++ [mk_log_entry LOG_WARNING inspect_warning (Some id)]).
Proof.
  intros H. apply InspectContainer_absent_document. now apply document_of_None.
Qed.

Lemma InspectContainer_without_document_witness :
  document_of Fixtures.one_uninspectable "a" = None /\
  InspectContainer Fixtures.one_uninspectable "a" [] =
  (Ok new_instance, [mk_log_entry LOG_WARNING inspect_warning (Some "a")]).
Proof.
  split; [reflexivity|].
  apply (InspectContainer_without_document Fixtures.one_uninspectable "a" []).
  reflexivity.
Defined.

(** X4. When the transport returns a document, [InspectContainer] returns
    a record exactly when no member the extraction dereferences is missing,
    and faults on a null dereference otherwise.  The identity of the record
    returned is read off the document: [InstanceID], [ImageId] and
    [CreatedTime] are the strings of its [Id], [Image] and [Created]
    members, whatever identifier was requested. *)
Theorem InspectContainer_identity_from_document
    (env : Collaborators) (id : string) (l : Syslog) (entry : cJSON) :
  document_of env id = Some entry ->
  (dereferences_safe entry = false ->
   outcome_of (InspectContainer env id l) = Fault NullDereference) /\
  (dereferences_safe entry = true ->
   exists idItem image created r l',
     cJSON_GetObjectItem entry "Id" = Some idItem /\
     cJSON_GetObjectItem entry "Image" = Some image /\
     cJSON_GetObjectItem entry "Created" = Some created /\
     InspectContainer env id l = (Ok r, l') /\
     InstanceID r = Some (valuestring idItem) /\
     ImageId r = Some (valuestring image) /\
     CreatedTime r = Some (valuestring created)).
Proof.
  intros Hdoc. rewrite (InspectContainer_with_document _ _ _ _ Hdoc). split.
  - intros Hunsafe.
    pose proof (InspectContainer_present_outcome env entry (new_instance, l)) as H.
    rewrite Hunsafe in H. unfold outcome_of in *.
    destruct (InspectContainer_present env entry (new_instance, l)) as [[[]|f] [r l']];
      cbn in *; congruence.
  - intros Hsafe.
    destruct (InspectContainer_present_safe env entry new_instance l Hsafe)
      as (idItem & image & created & r & Hid & Himage & Hcreated & Hrun & Hidentity).
    exists idItem, image, created, r. eexists.
    rewrite Hrun. unfold identity_properties in Hidentity.
    injection Hidentity as H1 H2 H3. repeat split; assumption.
Qed.

Lemma InspectContainer_identity_from_document_witness :
  exists r l',
    InspectContainer Fixtures.two_containers "a" [] = (Ok r, l') /\
    InstanceID r = Some (Some "a") /\
    ImageId r = Some (Some "img-a").
Proof.
  destruct (proj2 (InspectContainer_identity_from_document
                     Fixtures.two_containers "a" [] Fixtures.doc_a eq_refl) eq_refl)
    as (idItem & image & created & r & l' & Hid & Himage & _ & Hrun & Hi & Hm & _).
  exists r, l'. injection Hid as <-. injection Himage as <-.
  repeat split; assumption.
Defined.

(** X5. An inspection that runs to its end logs one warning for each of
    [Config], [State] and [HostConfig] the document lacks, in this order and
    nothing else; each warning carries the string of the document's [Id].  A
    document with the three sub-objects leaves the log as it was. *)
Theorem InspectContainer_warns_once_per_absent_sub_object
    (env : Collaborators) (id : string) (l : Syslog) (entry : cJSON) :
  document_of env id = Some entry ->
  dereferences_safe entry = true ->
  exists idItem r,
    cJSON_GetObjectItem entry "Id" = Some idItem /\
    InspectContainer env id l
    = (Ok r, l ++ absent_sub_object_warnings entry (valuestring idItem)) /\
    (has entry "Config" = true -> has entry "State" = true ->
     has entry "HostConfig" = true ->
     InspectContainer env id l = (Ok r, l)).
Proof.
  intros Hdoc Hsafe. rewrite (InspectContainer_with_document _ _ _ _ Hdoc).
  destruct (InspectContainer_present_safe env entry new_instance l Hsafe)
    as (idItem & image & created & r & Hid & _ & _ & Hrun & _).
  exists idItem, r. rewrite Hrun. split; [exact Hid|]. split; [reflexivity|].
  intros Hc Hs Hh. unfold absent_sub_object_warnings.
  rewrite Hc, Hs, Hh. cbn. now rewrite app_nil_r.
Qed.

Lemma InspectContainer_warns_once_per_absent_sub_object_witness :
  exists r,
    InspectContainer Fixtures.one_identity_only "z" []
    = (Ok r, [mk_log_entry LOG_WARNING config_warning (Some "z");
              mk_log_entry LOG_WARNING state_warning (Some "z");
              mk_log_entry LOG_WARNING host_config_warning (Some "z")]).
Proof.
  destruct (InspectContainer_warns_once_per_absent_sub_object
              Fixtures.one_identity_only "z" [] Fixtures.doc_identity_only
              eq_refl eq_refl)
    as (idItem & r & Hid & Hrun & _).
  exists r. rewrite Hrun. injection Hid as <-. reflexivity.
Defined.

(* ================================================================== *)
(** ** Invariants of the records returned *)

Lemma InspectContainer_present_consistent env entry l :
  outcome_of (InspectContainer_present env entry (new_instance, l)) = Ok tt ->
  state_consistent (final_instance (InspectContainer_present env entry (new_instance, l)))
  = true /\
  groups_consistent (final_instance (InspectContainer_present env entry (new_instance, l)))
  = true /\
  is_set (InstanceID (final_instance (InspectContainer_present env entry (new_instance, l))))
  = true.
Proof.
  unfold InspectContainer_present, ObtainContainerConfig, ObtainContainerState,
    ObtainContainerHostConfig.
  run_extractor; intros H; try discriminate; repeat split; congruence.
Qed.

Lemma InspectContainer_returns env id l r l' :
  InspectContainer env id l = (Ok r, l') ->
  (document_of env id = None /\ r = new_instance) \/
  (exists entry,
      document_of env id = Some entry /\
      outcome_of (InspectContainer_present env entry (new_instance, l)) = Ok tt /\
      final_instance (InspectContainer_present env entry (new_instance, l)) = r).
Proof.
  destruct (document_of env id) as [entry|] eqn:Hdoc.
  - rewrite (InspectContainer_with_document _ _ _ _ Hdoc). intros H. right.
    exists entry. split; [reflexivity|]. unfold outcome_of, final_instance.
    destruct (InspectContainer_present env entry (new_instance, l)) as [[[]|f] [r0 l0]];
      cbn; [|discriminate].
    injection H as -> _. split; reflexivity.
  - rewrite (InspectContainer_absent_document _ _ _ (document_of_None _ _ Hdoc)).
    intros H. injection H as <- _. left. split; reflexivity.
Qed.

(** X6. In every record [InspectContainer] returns the exit code and the
    state agree: both are absent, or the exit code is not zero and the state
    is "Failed", or the exit code is zero and the state is one of "Running",
    "Paused" and "Stopped". *)
Theorem InspectContainer_state_consistent
    (env : Collaborators) (id : string) (l l' : Syslog)
    (r : Container_ContainerInventory_Class) :
  InspectContainer env id l = (Ok r, l') ->
  state_consistent r = true.
Proof.
  intros H.
  destruct (InspectContainer_returns _ _ _ _ _ H) as [[_ ->] | (entry & _ & Hok & <-)].
  - reflexivity.
  - apply (InspectContainer_present_consistent env entry l Hok).
Qed.

Lemma InspectContainer_state_consistent_witness :
  state_consistent Fixtures.record_a = true.
Proof.
  apply (InspectContainer_state_consistent Fixtures.two_containers "a" [] []).
  reflexivity.
Defined.

(** X7. In every record [InspectContainer] returns the properties are set
    by groups: [InstanceID], [ImageId] and [CreatedTime] together;
    [ContainerHostname], [EnvironmentVar] and [Command] together, and
    [ComposeGroup] only beside them; [Links] and [Ports] together.  The
    identity group is set exactly when the transport returned a document. *)
Theorem InspectContainer_groups_consistent
    (env : Collaborators) (id : string) (l l' : Syslog)
    (r : Container_ContainerInventory_Class) :
  InspectContainer env id l = (Ok r, l') ->
  groups_consistent r = true /\
  (is_set (InstanceID r) = true <-> document_of env id <> None).
Proof.
  intros H.
  destruct (InspectContainer_returns _ _ _ _ _ H)
    as [[Hdoc ->] | (entry & Hdoc & Hok & <-)]; rewrite Hdoc.
  - split; [reflexivity|]. cbn. split; [discriminate | congruence].
  - destruct (InspectContainer_present_consistent env entry l Hok) as (_ & Hg & Hset).
    split; [exact Hg|]. split; [discriminate | intros _; exact Hset].
Qed.

Lemma InspectContainer_groups_consistent_witness :
  groups_consistent Fixtures.record_no_config = true.
Proof.
  apply (InspectContainer_groups_consistent Fixtures.first_lacks_config "a" []
           [mk_log_entry LOG_WARNING config_warning (Some "a")]).
  reflexivity.
Defined.

(* ================================================================== *)
(** ** What [QueryAll] returns *)

(** X8. With one container on the host, [QueryAll] returns one record as
    soon as the inspection returns: the record of the inspection with
    [ImageId] overwritten and every other property as the inspection left
    it.  The value written is the host name, and the empty string when
    [gethostname] fails. *)
Theorem QueryAll_single_container_stamped
    (env : Collaborators) (id : string) (l l' : Syslog)
    (r : Container_ContainerInventory_Class) :
  listContainer env true = [id] ->
  InspectContainer env id l = (Ok r, l') ->
  exists stamped,
    QueryAll env l = (Ok [stamped], l') /\
    ImageId stamped
    = Some (Some (if (fst (gethostname env 256) =? 0)%Z
                  then snd (gethostname env 256) else "")) /\
    InstanceID stamped = InstanceID r /\
    CreatedTime stamped = CreatedTime r /\
    config_properties stamped = config_properties r /\
    state_properties stamped = state_properties r /\
    host_config_properties stamped = host_config_properties r.
Proof.
  intros Hids Hinspect.
  exists (ImageId_value (Some (host_name env)) r).
  rewrite (QueryAll_single_container _ _ _ _ _ Hids Hinspect).
  unfold host_name.
  destruct (fst (gethostname env 256) =? 0)%Z; repeat split.
Qed.

Lemma QueryAll_single_container_stamped_witness :
  exists stamped,
    QueryAll (Fixtures.unnamed [("a", Some Fixtures.doc_a)]) [] = (Ok [stamped], []) /\
    ImageId stamped = Some (Some "") /\
    InstanceID stamped = Some (Some "a").
Proof.
  destruct (QueryAll_single_container_stamped
              (Fixtures.unnamed [("a", Some Fixtures.doc_a)]) "a" [] []
              Fixtures.record_a eq_refl eq_refl)
    as (stamped & Hrun & Himage & Hinstance & _).
  exists stamped. repeat split; assumption.
Defined.

(** X9. When the only container of the host cannot be inspected,
    [QueryAll] still returns one record: every property is absent but
    [ImageId], which holds the host name, and the log gains the one warning
    of the inspection. *)
Theorem QueryAll_single_container_without_document
    (env : Collaborators) (id : string) (l : Syslog) :
  listContainer env true = [id] ->
  document_of env id = None ->
  QueryAll env l =
  (Ok [ImageId_value (Some (host_name env)) new_instance],
   l ++ [mk_log_entry LOG_WARNING inspect_warning (Some id)]).
Proof.
  intros Hids Hdoc.
  apply (QueryAll_single_container _ _ _ _ _ Hids).
  apply InspectContainer_absent_document. now apply document_of_None.
Qed.

Lemma QueryAll_single_container_without_document_witness :
  QueryAll Fixtures.one_uninspectable [] =
  (Ok [ImageId_value (Some "node-1") new_instance],
   [mk_log_entry LOG_WARNING inspect_warning (Some "a")]).
Proof.
  apply (QueryAll_single_container_without_document Fixtures.one_uninspectable "a" []);
    reflexivity.
Defined.

(* ================================================================== *)
(** ** What the provider posts ([EnumerateInstances]) *)




(** X12. On a host without containers [QueryAll] returns the empty set and
    logs nothing, and [EnumerateInstances] posts the status [MI_RESULT_OK]
    and nothing else. *)
Theorem no_container_only_the_status
    (env : Collaborators) (keysOnly : bool) (context : Context) (l : Syslog) :
  listContainer env true = [] ->
  QueryAll env l = (Ok [], l) /\
  EnumerateInstances env keysOnly (context, l)
  = (Ok tt, (context ++ [Post_result MI_RESULT_OK], l)).
Proof.
  intros Hids. pose proof (QueryAll_no_container env l Hids) as Hrun.
  split; [exact Hrun|].
  unfold EnumerateInstances. rewrite Hrun. reflexivity.
Qed.

Lemma no_container_only_the_status_witness :
  EnumerateInstances Fixtures.no_containers true ([], [])
  = (Ok tt, ([Post_result MI_RESULT_OK], [])).
Proof.
  apply (no_container_only_the_status Fixtures.no_containers true [] []).
  reflexivity.
Defined.


(* ================================================================== *)
(** ** The log is only appended to *)




(* ================================================================== *)
(** ** The loop of [QueryAll] without the bounds test *)














(** A complete document whose [State] has no timestamps is extracted like
    any other: the two lookups of lines 110-111 read nothing. *)
Example document_without_timestamps_extracted :
  has Fixtures.doc_round_trip "State" = true /\
  dereferences_safe Fixtures.doc_round_trip = true /\
  InspectContainer_present Fixtures.no_containers Fixtures.doc_round_trip (new_instance, [])
  = (Ok tt,
     ({| InstanceID := Some (Some "abc123");
         ImageId := Some (Some "img1");
         CreatedTime := Some (Some "2024-01-01T00:00:00Z");
         ContainerHostname := Some (Some "h1");
         EnvironmentVar := Some (Some "<json>");
         Command := Some (Some "<json>");
         ComposeGroup := Some (Some "grp");
         ExitCode := Some 0%Z;
         State := Some (Some "Running");
         Links := Some (Some "<json>");
         Ports := Some (Some "<json>") |}, [])).
Proof. repeat split. Qed.

(** Two containers, both inspected: without the test on the subscript the
    collection returns both records, the first with the image of its
    document, the second with the host name. *)
Example QueryAll_unchecked_two_containers :
  exists record_b,
    QueryAll_unchecked Fixtures.two_containers [] = (Ok [Fixtures.record_a; record_b], []) /\
    ImageId Fixtures.record_a = Some (Some "img-a") /\
    ImageId record_b = Some (Some "node-1").
Proof. eexists. repeat split. Qed.
